(** * collisions.ipynb: collisions in the corona and the solar wind

    A shallow embedding of the notebook [src/collisions.ipynb].  The notebook
    is a flat sequence of statements over the kernel's global namespace; every
    physical quantity is obtained from the PlasmaPy formulary and from astropy
    units, which are not part of the repository.  The formulary is therefore
    an interface ([Formulary]) the notebook is parametrised by, and the
    notebook itself is a program in a state-and-exception monad over

    - the namespace (a finite map from variable names to Python values),
    - the outputs of the cells (stream output and execute results),
    - the log of the library calls made so far, with their arguments.

    Python floats are represented by the rational number they denote.  The
    notebook performs no rounding float operation of its own (it multiplies
    literals by units and passes values around), and comparisons of finite
    floats are comparisons of the rationals they denote.  Values are
    immutable data: a library function receives its arguments and returns a
    result or raises; it has no access to the caller's namespace. *)

From Stdlib Require Import ZArith QArith Reals Lra Qreals.
From stdpp Require Import base gmap strings list.

#[local] Set Warnings "-register-all".

Open Scope string_scope.

(** ** astropy units and quantities *)

(** Unit expressions as the notebook writes them: [u.K], [u.cm**-3],
    [u.m / u.s], [u.dimensionless_unscaled]. *)
Inductive Unit :=
| UNamed (name : string)
| UPow (un : Unit) (p : Z)
| UMul (un vn : Unit)
| UDiv (un vn : Unit)
| dimensionless_unscaled.

#[global] Instance Unit_eq_dec : EqDecision Unit.
Proof. solve_decision. Defined.

(** A quantity holds a scalar or an array of floats. *)
Inductive Magnitude :=
| Scalar (x : Q)
| Array (xs : list Q).

(** astropy's [Quantity]: the attributes [value] and [unit]. *)
Record Quantity := mkQuantity { value : Magnitude; unit_of : Unit }.

Module u.
Definition K := UNamed "K".
Definition cm := UNamed "cm".
Definition m := UNamed "m".
Definition s := UNamed "s".
Definition G := UNamed "G".
Definition Hz := UNamed "Hz".
Definition rad := UNamed "rad".
End u.

(** [x * unit]: a float times a unit is a scalar quantity. *)
Definition float_mul_unit (x : Q) (un : Unit) : Quantity :=
  mkQuantity (Scalar x) un.

(** [q / unit]: the magnitude is kept, the unit is divided. *)
Definition quantity_div_unit (q : Quantity) (un : Unit) : Quantity :=
  mkQuantity (value q) (UDiv (unit_of q) un).

(** The [equivalencies] argument of [Quantity.to]. *)
Inductive Equivalency :=
| no_equivalency
| dimensionless_angles.

(** ** Python values, exceptions and the notebook state *)

(** The arguments of [MaxwellianCollisionFrequencies]: the two positional
    species and the keyword arguments the notebook passes. *)
Record MaxwellianArgs := mkMaxwellianArgs {
  test_particle : string;
  field_particle : string;
  v_drift : Quantity;
  T_a : Quantity;
  n_a : Quantity;
  n_b : Quantity;
  T_b : Quantity;
  Coulomb_log : Quantity
}.

Section Model.

(** [E]: the exceptions the libraries define; [Obj]: the objects
    [MaxwellianCollisionFrequencies] constructs. *)
Context {E Obj : Type}.

Inductive Value :=
| VFloat (x : Q)
| VQuantity (q : Quantity)
| VStr (s : string)
| VList (l : list Value)
| VDict (d : gmap string Value)
| VObject (o : Obj).

(** Exceptions: the libraries' own, and those the interpreter raises. *)
Inductive Exception :=
| LibraryError (e : E)
| NameError (x : string)
| TypeError
| ValueError.

Inductive Outcome (A : Type) :=
| Returned (a : A)
| Raised (x : Exception).
#[global] Arguments Returned {A} a.
#[global] Arguments Raised {A} x.

(** One item of a [print] call: a value, or an f-string field
    [{name = :spec}]. *)
Inductive Shown :=
| Plain (v : Value)
| Formatted (label : string) (v : Value) (spec : string).

(** Cell outputs, tagged with the cell's execution count. *)
Inductive Output :=
| Stream (cell : nat) (items : list Shown)
| ExecuteResult (cell : nat) (v : Value).

(** The library calls of the notebook, with their arguments. *)
Inductive Call :=
| call_thermal_speed (T : Quantity) (particle : list string)
    (method : string) (ndim : Z)
| call_impact_parameter (T n_e : Quantity) (species : list string)
| call_Coulomb_logarithm (T n_e : Quantity) (species : list string)
| call_MaxwellianCollisionFrequencies (args : MaxwellianArgs)
| call_Lorentz_collision_frequency (o : Obj)
| call_plasma_frequency (n : Quantity) (particle : list string)
| call_gyrofrequency (B : Quantity) (particle : list string)
| call_to (q : Quantity) (target : string) (equivalencies : Equivalency).

(** A logged call: the execution count of the calling cell, the call, and
    the exception it raised, if any. *)
Record CallRecord := mkCallRecord {
  site : nat;
  callee : Call;
  raised : option E
}.

Record State := mkState {
  ns : gmap string Value;
  outputs : list Output;
  calls : list CallRecord
}.

Definition fresh_kernel : State := mkState ∅ [] [].

(** *** The monad of statements

    A statement maps the state to the new state and either a value or the
    exception that aborted it; the namespace survives an exception, as in
    a notebook kernel. *)
Definition M (A : Type) : Type := State → State * Outcome A.

Definition ret {A} (a : A) : M A := fun s => (s, Returned a).

Definition bind {A B} (m : M A) (k : A → M B) : M B :=
  fun s =>
    match m s with
    | (s', Returned a) => k a s'
    | (s', Raised x) => (s', Raised x)
    end.

Definition raise {A} (x : Exception) : M A := fun s => (s, Raised x).

(** [x = v] *)
Definition assign (x : string) (v : Value) : M unit :=
  fun s => (mkState (<[x := v]> (ns s)) (outputs s) (calls s), Returned tt).

(** Reading the name [x] *)
Definition load (x : string) : M Value :=
  fun s =>
    match ns s !! x with
    | Some v => (s, Returned v)
    | None => (s, Raised (NameError x))
    end.

Definition emit (o : Output) : M unit :=
  fun s => (mkState (ns s) (outputs s ++ [o]) (calls s), Returned tt).

End Model.

Arguments Value : clear implicits.
Arguments Exception : clear implicits.
Arguments Call : clear implicits.
Arguments CallRecord : clear implicits.
Arguments State : clear implicits.
Arguments Output : clear implicits.
Arguments Shown : clear implicits.

(** ** The formulary interface

    Every function returns its result or the exception it raised.  The
    functions are the ones the notebook imports from [plasmapy.formulary]
    (with the arguments it passes), the attribute
    [Lorentz_collision_frequency] of the object
    [MaxwellianCollisionFrequencies] constructs, and astropy's
    [Quantity.to]. *)
Inductive LibResult (E A : Type) :=
| Ok (a : A)
| Err (e : E).
Arguments Ok {E A} a.
Arguments Err {E A} e.

Class Formulary (E Obj : Type) := {
  thermal_speed :
    Quantity → list string → string → Z → LibResult E Quantity;
  impact_parameter :
    Quantity → Quantity → list string → LibResult E (Quantity * Quantity);
  Coulomb_logarithm :
    Quantity → Quantity → list string → LibResult E Q;
  MaxwellianCollisionFrequencies : MaxwellianArgs → LibResult E Obj;
  Lorentz_collision_frequency : Obj → LibResult E Quantity;
  plasma_frequency : Quantity → list string → LibResult E Quantity;
  gyrofrequency : Quantity → list string → LibResult E Quantity;
  Quantity_to : Quantity → string → Equivalency → LibResult E Quantity
}.

(** ** The notebook *)

Section Notebook.

Context {E Obj : Type} {L : Formulary E Obj}.

#[local] Abbreviation M := (@M E Obj).
#[local] Abbreviation Value := (Value Obj).

#[global] Instance M_ret : MRet M := λ A, ret.
#[global] Instance M_bind : MBind M := λ A B k m, bind m k.

(** A library call: the call is logged with its outcome, and the
    library's exception, if any, is raised as it is. *)
Definition invoke {A} (cell : nat) (c : Call Obj) (r : LibResult E A) : M A :=
  fun s =>
    match r with
    | Ok a =>
        (mkState (ns s) (outputs s) (calls s ++ [mkCallRecord cell c None]),
         Returned a)
    | Err e =>
        (mkState (ns s) (outputs s) (calls s ++ [mkCallRecord cell c (Some e)]),
         Raised (LibraryError e))
    end.

Definition py_thermal_speed cell T particle method ndim : M Quantity :=
  invoke cell (call_thermal_speed T particle method ndim)
    (thermal_speed T particle method ndim).

Definition py_impact_parameter cell T n_e species : M (Quantity * Quantity) :=
  invoke cell (call_impact_parameter T n_e species)
    (impact_parameter T n_e species).

Definition py_Coulomb_logarithm cell T n_e species : M Q :=
  invoke cell (call_Coulomb_logarithm T n_e species)
    (Coulomb_logarithm T n_e species).

Definition py_MaxwellianCollisionFrequencies cell args : M Obj :=
  invoke cell (call_MaxwellianCollisionFrequencies args)
    (MaxwellianCollisionFrequencies args).

Definition py_Lorentz_collision_frequency cell o : M Quantity :=
  invoke cell (call_Lorentz_collision_frequency o)
    (Lorentz_collision_frequency o).

Definition py_plasma_frequency cell n particle : M Quantity :=
  invoke cell (call_plasma_frequency n particle) (plasma_frequency n particle).

Definition py_gyrofrequency cell B particle : M Quantity :=
  invoke cell (call_gyrofrequency B particle) (gyrofrequency B particle).

Definition py_to cell q target equivalencies : M Quantity :=
  invoke cell (call_to q target equivalencies)
    (Quantity_to q target equivalencies).

(** *** Dynamic typing *)

Definition as_quantity (v : Value) : M Quantity :=
  match v with VQuantity q => mret q | _ => raise TypeError end.

Definition as_dict (v : Value) : M (gmap string Value) :=
  match v with VDict d => mret d | _ => raise TypeError end.

Definition as_object (v : Value) : M Obj :=
  match v with VObject o => mret o | _ => raise TypeError end.

Fixpoint as_strings (l : list Value) : option (list string) :=
  match l with
  | [] => Some []
  | VStr s :: l' => cons s <$> as_strings l'
  | _ => None
  end.

(** [f( **d)] for the formulary functions of a scenario: the items of
    the dictionary become the keyword arguments [T], [n_e] and [species]. *)
Definition scenario_kwargs (d : gmap string Value)
  : M (Quantity * Quantity * list string) :=
  match d !! "T", d !! "n_e", d !! "species" with
  | Some (VQuantity T), Some (VQuantity n_e), Some (VList sp) =>
      match as_strings sp with
      | Some species => mret (T, n_e, species)
      | None => raise TypeError
      end
  | _, _, _ => raise TypeError
  end.

(** [a, b = q]: iterating an array quantity yields its components with
    the array's unit; there must be exactly two. *)
Definition unpack2 (q : Quantity) : M (Quantity * Quantity) :=
  match value q with
  | Array [x; y] =>
      mret (mkQuantity (Scalar x) (unit_of q), mkQuantity (Scalar y) (unit_of q))
  | Array _ => raise ValueError
  | Scalar _ => raise TypeError
  end.

(** *** The scenarios *)

Definition solar_corona : gmap string Value :=
  <["T" := VQuantity (float_mul_unit 1e6 u.K)]>
  (<["n_e" := VQuantity (float_mul_unit 1e9 (UPow u.cm (-3)))]>
  (<["species" := VList [VStr "e-"; VStr "p+"]]> ∅)).

Definition solar_wind : gmap string Value :=
  <["T" := VQuantity (float_mul_unit 6e5 u.K)]>
  (<["n_e" := VQuantity (float_mul_unit 25 (UPow u.cm (-3)))]>
  (<["species" := VList [VStr "e-"; VStr "p+"]]> ∅)).

(** [f( **name)]: loads the dictionary bound to [name] and passes its
    items. *)
Definition with_scenario {A} (name : string)
    (f : Quantity → Quantity → list string → M A) : M A :=
  d ← load name ≫= as_dict;
  '(T, n_e, species) ← scenario_kwargs d;
  f T n_e species.

(** [print(f"{name = :.2e}")] *)
Definition print_formatted (cell : nat) (name : string) : M unit :=
  v ← load name;
  emit (Stream cell [Formatted name v ".2e"]).

(** *** The cells, statement by statement

    Cell 65 holds the imports and binds no name the notebook reads as a
    value. *)
Definition cell65 : list (M unit) := [].

Definition cell66 : list (M unit) := [
  (* T_corona = 1e6 * u.K *)
  assign "T_corona" (VQuantity (float_mul_unit 1e6 u.K));
  (* v_e,v_p = thermal_speed(T=T_corona, particle=["e-","p+"],
                             method="most_probable", ndim=3) *)
  (T ← load "T_corona" ≫= as_quantity;
   speeds ← py_thermal_speed 66 T ["e-"; "p+"] "most_probable" 3;
   '(v_e, v_p) ← unpack2 speeds;
   assign "v_e" (VQuantity v_e);;
   assign "v_p" (VQuantity v_p));
  (* print(v_e,v_p) *)
  (v_e ← load "v_e";
   v_p ← load "v_p";
   emit (Stream 66 [Plain v_e; Plain v_p]))
].

Definition cell67 : list (M unit) := [
  (* solar_corona = {"T": 1e6 * u.K, "n_e": 1e9 * u.cm**-3,
                     "species": ["e-", "p+"]} *)
  assign "solar_corona" (VDict solar_corona);
  (* bmin, bmax = impact_parameter( **solar_corona) *)
  ('(bmin, bmax) ← with_scenario "solar_corona" (py_impact_parameter 67);
   assign "bmin" (VQuantity bmin);;
   assign "bmax" (VQuantity bmax));
  (* print(f"{bmin = :.2e}") *)
  print_formatted 67 "bmin";
  (* print(f"{bmax = :.2e}") *)
  print_formatted 67 "bmax";
  (* Coulomb_logarithm( **solar_corona) *)
  (lnL ← with_scenario "solar_corona" (py_Coulomb_logarithm 67);
   emit (ExecuteResult 67 (VFloat lnL)))
].

Definition cell68 : list (M unit) := [
  (* n = 1e9 * u.cm**-3 *)
  assign "n" (VQuantity (float_mul_unit 1e9 (UPow u.cm (-3))));
  (* Coulomb_log = Coulomb_logarithm( **solar_corona) * u.dimensionless_unscaled *)
  (lnL ← with_scenario "solar_corona" (py_Coulomb_logarithm 68);
   assign "Coulomb_log" (VQuantity (float_mul_unit lnL dimensionless_unscaled)));
  (* frequencies = coll.frequencies.MaxwellianCollisionFrequencies(
       "e-", "p+", v_drift=0 * u.m / u.s, T_a=T_corona,n_a=n,n_b=n,
       T_b=T_corona, Coulomb_log=Coulomb_log) *)
  (Ta ← load "T_corona" ≫= as_quantity;
   na ← load "n" ≫= as_quantity;
   nb ← load "n" ≫= as_quantity;
   Tb ← load "T_corona" ≫= as_quantity;
   cl ← load "Coulomb_log" ≫= as_quantity;
   o ← py_MaxwellianCollisionFrequencies 68
          (mkMaxwellianArgs "e-" "p+"
             (quantity_div_unit (float_mul_unit 0 u.m) u.s) Ta na nb Tb cl);
   assign "frequencies" (VObject o));
  (* frequencies.Lorentz_collision_frequency *)
  (o ← load "frequencies" ≫= as_object;
   nu ← py_Lorentz_collision_frequency 68 o;
   emit (ExecuteResult 68 (VQuantity nu)))
].

Definition cell69 : list (M unit) := [
  (* plasma_frequency(n, ['e-','p+']).to("Hz",
       equivalencies=u.dimensionless_angles()) *)
  (n ← load "n" ≫= as_quantity;
   omega ← py_plasma_frequency 69 n ["e-"; "p+"];
   f ← py_to 69 omega "Hz" dimensionless_angles;
   emit (ExecuteResult 69 (VQuantity f)))
].

Definition cell70 : list (M unit) := [
  (* B = 50 * u.G *)
  assign "B" (VQuantity (float_mul_unit 50 u.G));
  (* gyrofrequency(B, ['e-','p+']).to("Hz",
       equivalencies=u.dimensionless_angles()) *)
  (B ← load "B" ≫= as_quantity;
   omega ← py_gyrofrequency 70 B ["e-"; "p+"];
   f ← py_to 70 omega "Hz" dimensionless_angles;
   emit (ExecuteResult 70 (VQuantity f)))
].

Definition cell71 : list (M unit) := [
  (* solar_wind = {"T": 6e5 * u.K, "n_e": 25 * u.cm**-3,
                   "species": ["e-", "p+"]} *)
  assign "solar_wind" (VDict solar_wind);
  (* bmin, bmax = impact_parameter( **solar_wind) *)
  ('(bmin, bmax) ← with_scenario "solar_wind" (py_impact_parameter 71);
   assign "bmin" (VQuantity bmin);;
   assign "bmax" (VQuantity bmax));
  (* print(f"{bmin = :.2e}") *)
  print_formatted 71 "bmin";
  (* print(f"{bmax = :.2e}") *)
  print_formatted 71 "bmax";
  (* Coulomb_log = Coulomb_logarithm( **solar_wind)* u.dimensionless_unscaled *)
  (lnL ← with_scenario "solar_wind" (py_Coulomb_logarithm 71);
   assign "Coulomb_log" (VQuantity (float_mul_unit lnL dimensionless_unscaled)));
  (* print(f"{Coulomb_log = :.2e}") *)
  print_formatted 71 "Coulomb_log";
  (* T_wind = 6*10**5*u.K *)
  assign "T_wind" (VQuantity (float_mul_unit (inject_Z (6 * 10 ^ 5)) u.K));
  (* n_wind = 25 * u.cm**-3 *)
  assign "n_wind" (VQuantity (float_mul_unit 25 (UPow u.cm (-3))));
  (* frequencies = coll.frequencies.MaxwellianCollisionFrequencies(
       "e-", "p+", v_drift=0 * u.m / u.s, T_a=T_wind,n_a=n_wind,
       n_b=n_wind, T_b=T_wind, Coulomb_log=Coulomb_log) *)
  (Ta ← load "T_wind" ≫= as_quantity;
   na ← load "n_wind" ≫= as_quantity;
   nb ← load "n_wind" ≫= as_quantity;
   Tb ← load "T_wind" ≫= as_quantity;
   cl ← load "Coulomb_log" ≫= as_quantity;
   o ← py_MaxwellianCollisionFrequencies 71
          (mkMaxwellianArgs "e-" "p+"
             (quantity_div_unit (float_mul_unit 0 u.m) u.s) Ta na nb Tb cl);
   assign "frequencies" (VObject o));
  (* frequencies.Lorentz_collision_frequency *)
  (o ← load "frequencies" ≫= as_object;
   nu ← py_Lorentz_collision_frequency 71 o;
   emit (ExecuteResult 71 (VQuantity nu)))
].

Definition notebook : list (M unit) :=
  cell65 ++ cell66 ++ cell67 ++ cell68 ++ cell69 ++ cell70 ++ cell71.

(** Statements run in order; the first exception ends the run. *)
Fixpoint exec (p : list (M unit)) : M unit :=
  match p with
  | [] => mret tt
  | st :: p' => st;; exec p'
  end.

(** The run of the whole notebook in a fresh kernel. *)
Definition run_all : State E Obj * Outcome unit := exec notebook fresh_kernel.

(** *** Assertions on runs *)

(** [wp m Φ s]: running [m] from [s] ends in a state and an outcome that
    satisfy [Φ].  Every statement terminates, so this is total
    correctness. *)
Definition wp {A} (m : M A) (Φ : State E Obj → Outcome A → Prop)
    (s : State E Obj) : Prop :=
  Φ (m s).1 (m s).2.

(** [frames x m]: from every state, running [m] leaves the binding of
    the name [x] as it was, whether [m] returns or raises. *)
Definition frames {A} (x : string) (m : M A) : Prop :=
  ∀ s, ns (m s).1 !! x = ns s !! x.

End Notebook.

(** ** What a run shows *)

Section Observations.

Context {E Obj : Type}.

(** The value a cell printed as [name = ...]. *)
Fixpoint find_printed (cell : nat) (name : string) (out : list (Output Obj))
  : option (Value Obj) :=
  match out with
  | [] => None
  | Stream c [Formatted l v _] :: out' =>
      if decide (c = cell ∧ l = name) then Some v
      else find_printed cell name out'
  | _ :: out' => find_printed cell name out'
  end.

Definition printed (s : State E Obj) (cell : nat) (name : string)
  : option (Value Obj) :=
  find_printed cell name (outputs s).

End Observations.

(** ** Orders of magnitude *)

(** The "slowly flowing" condition of the Maxwellian model,
    [v_drift ≪ sqrt(v_a^2 + v_b^2)], for thermal speeds [v_a] and [v_b];
    [≪] is read as: smaller by more than three orders of magnitude. *)
Definition slowly_flowing (v_drift : Q) (v_a v_b : R) : Prop :=
  (1000 * Q2R v_drift < sqrt (v_a * v_a + v_b * v_b))%R.

(** ** The outputs recorded in the notebook

    The values the output cells of the notebook file show for its own run.
    They are what the library [Replay] below returns; no property of the
    formulary itself is derived from them. *)
Module Recorded.

Definition v_e : Q := Eval vm_compute in 5505694.902726359%Q.
Definition v_p : Q := Eval vm_compute in 128486.5732808313%Q.
Definition bmin_corona : Q := Eval vm_compute in 1.05e-11%Q.
Definition bmax_corona : Q := Eval vm_compute in 2.18e-03%Q.
Definition lnL_corona : Q := Eval vm_compute in 19.150697742645406%Q.
Definition nu_corona : Q := Eval vm_compute in 92.41654907%Q.
Definition plasma_e : Q := Eval vm_compute in 1.78398637e+09%Q.
Definition plasma_p : Q := Eval vm_compute in 4.16329453e+07%Q.
Definition gyro_e : Q := Eval vm_compute in 8.79410005e+08%Q.
Definition gyro_p : Q := Eval vm_compute in 4.78941658e+05%Q.
Definition bmin_wind : Q := Eval vm_compute in 1.39e-11%Q.
Definition bmax_wind : Q := Eval vm_compute in 1.07e+01%Q.
Definition lnL_wind : Q := Eval vm_compute in 2.74e+01%Q.
Definition nu_wind : Q := Eval vm_compute in 7.10396736e-06%Q.

End Recorded.

(** ** A run in which every call returns

    [Responses] names the values the library returns along the call
    sequence, whatever they are, and [answers] says that the library returns
    them on the arguments the cells pass. *)
Record Responses (Obj : Type) := mkResponses {
  r_v_e : Q;
  r_v_p : Q;
  r_speed_unit : Unit;
  r_bmin_corona : Quantity;
  r_bmax_corona : Quantity;
  r_lnL_corona : Q;
  r_obj_corona : Obj;
  r_nu_corona : Quantity;
  r_omega_p : Quantity;
  r_f_p : Quantity;
  r_omega_c : Quantity;
  r_f_c : Quantity;
  r_bmin_wind : Quantity;
  r_bmax_wind : Quantity;
  r_lnL_wind : Q;
  r_obj_wind : Obj;
  r_nu_wind : Quantity
}.
Arguments r_v_e {Obj} r.
Arguments r_v_p {Obj} r.
Arguments r_speed_unit {Obj} r.
Arguments r_bmin_corona {Obj} r.
Arguments r_bmax_corona {Obj} r.
Arguments r_lnL_corona {Obj} r.
Arguments r_obj_corona {Obj} r.
Arguments r_nu_corona {Obj} r.
Arguments r_omega_p {Obj} r.
Arguments r_f_p {Obj} r.
Arguments r_omega_c {Obj} r.
Arguments r_f_c {Obj} r.
Arguments r_bmin_wind {Obj} r.
Arguments r_bmax_wind {Obj} r.
Arguments r_lnL_wind {Obj} r.
Arguments r_obj_wind {Obj} r.
Arguments r_nu_wind {Obj} r.

(** The arguments of the two scenarios. *)
Definition species_ep : list string := ["e-"; "p+"].
Definition T_corona : Quantity := float_mul_unit 1e6 u.K.
Definition n_corona : Quantity := float_mul_unit 1e9 (UPow u.cm (-3)).
Definition B_corona : Quantity := float_mul_unit 50 u.G.
Definition T_wind : Quantity := float_mul_unit 6e5 u.K.
Definition n_wind : Quantity := float_mul_unit 25 (UPow u.cm (-3)).
Definition no_drift : Quantity := quantity_div_unit (float_mul_unit 0 u.m) u.s.

Section Transcript.

Context {E Obj : Type} {L : Formulary E Obj}.

Definition maxwellian_corona (r : Responses Obj) : MaxwellianArgs :=
  mkMaxwellianArgs "e-" "p+" no_drift T_corona n_corona n_corona T_corona
    (float_mul_unit (r_lnL_corona r) dimensionless_unscaled).

Definition maxwellian_wind (r : Responses Obj) : MaxwellianArgs :=
  mkMaxwellianArgs "e-" "p+" no_drift T_wind n_wind n_wind T_wind
    (float_mul_unit (r_lnL_wind r) dimensionless_unscaled).

Record answers (r : Responses Obj) : Prop := {
  ans_thermal_speed :
    thermal_speed T_corona species_ep "most_probable" 3 =
    Ok (mkQuantity (Array [r_v_e r; r_v_p r]) (r_speed_unit r));
  ans_impact_corona :
    impact_parameter T_corona n_corona species_ep =
    Ok (r_bmin_corona r, r_bmax_corona r);
  ans_lnL_corona :
    Coulomb_logarithm T_corona n_corona species_ep = Ok (r_lnL_corona r);
  ans_maxwellian_corona :
    MaxwellianCollisionFrequencies (maxwellian_corona r) = Ok (r_obj_corona r);
  ans_lorentz_corona :
    Lorentz_collision_frequency (r_obj_corona r) = Ok (r_nu_corona r);
  ans_plasma :
    plasma_frequency n_corona species_ep = Ok (r_omega_p r);
  ans_plasma_hz :
    Quantity_to (r_omega_p r) "Hz" dimensionless_angles = Ok (r_f_p r);
  ans_gyro :
    gyrofrequency B_corona species_ep = Ok (r_omega_c r);
  ans_gyro_hz :
    Quantity_to (r_omega_c r) "Hz" dimensionless_angles = Ok (r_f_c r);
  ans_impact_wind :
    impact_parameter T_wind n_wind species_ep =
    Ok (r_bmin_wind r, r_bmax_wind r);
  ans_lnL_wind :
    Coulomb_logarithm T_wind n_wind species_ep = Ok (r_lnL_wind r);
  ans_maxwellian_wind :
    MaxwellianCollisionFrequencies (maxwellian_wind r) = Ok (r_obj_wind r);
  ans_lorentz_wind :
    Lorentz_collision_frequency (r_obj_wind r) = Ok (r_nu_wind r)
}.

(** What the cells show when every call returns. *)
Definition outputs_of (r : Responses Obj) : list (Output Obj) := [
  Stream 66 [Plain (VQuantity (mkQuantity (Scalar (r_v_e r)) (r_speed_unit r)));
             Plain (VQuantity (mkQuantity (Scalar (r_v_p r)) (r_speed_unit r)))];
  Stream 67 [Formatted "bmin" (VQuantity (r_bmin_corona r)) ".2e"];
  Stream 67 [Formatted "bmax" (VQuantity (r_bmax_corona r)) ".2e"];
  ExecuteResult 67 (VFloat (r_lnL_corona r));
  ExecuteResult 68 (VQuantity (r_nu_corona r));
  ExecuteResult 69 (VQuantity (r_f_p r));
  ExecuteResult 70 (VQuantity (r_f_c r));
  Stream 71 [Formatted "bmin" (VQuantity (r_bmin_wind r)) ".2e"];
  Stream 71 [Formatted "bmax" (VQuantity (r_bmax_wind r)) ".2e"];
  Stream 71 [Formatted "Coulomb_log"
               (VQuantity (float_mul_unit (r_lnL_wind r) dimensionless_unscaled))
               ".2e"];
  ExecuteResult 71 (VQuantity (r_nu_wind r))
].

(** The calls made when every call returns. *)
Definition calls_of (r : Responses Obj) : list (CallRecord E Obj) := [
  mkCallRecord 66 (call_thermal_speed T_corona species_ep "most_probable" 3) None;
  mkCallRecord 67 (call_impact_parameter T_corona n_corona species_ep) None;
  mkCallRecord 67 (call_Coulomb_logarithm T_corona n_corona species_ep) None;
  mkCallRecord 68 (call_Coulomb_logarithm T_corona n_corona species_ep) None;
  mkCallRecord 68 (call_MaxwellianCollisionFrequencies (maxwellian_corona r)) None;
  mkCallRecord 68 (call_Lorentz_collision_frequency (r_obj_corona r)) None;
  mkCallRecord 69 (call_plasma_frequency n_corona species_ep) None;
  mkCallRecord 69 (call_to (r_omega_p r) "Hz" dimensionless_angles) None;
  mkCallRecord 70 (call_gyrofrequency B_corona species_ep) None;
  mkCallRecord 70 (call_to (r_omega_c r) "Hz" dimensionless_angles) None;
  mkCallRecord 71 (call_impact_parameter T_wind n_wind species_ep) None;
  mkCallRecord 71 (call_Coulomb_logarithm T_wind n_wind species_ep) None;
  mkCallRecord 71 (call_MaxwellianCollisionFrequencies (maxwellian_wind r)) None;
  mkCallRecord 71 (call_Lorentz_collision_frequency (r_obj_wind r)) None
].

End Transcript.

(** ** Two concrete libraries

    [Replay] answers the calls of the two scenarios with the values the
    notebook file records and raises on any other argument; the objects of
    its [MaxwellianCollisionFrequencies] are their own arguments.
    [BrokenGyro] is the same library with a [gyrofrequency] that raises. *)
Module Replay.

Definition holds (q : Quantity) (x : Q) (un : Unit) : bool :=
  match value q with
  | Scalar y => Qeq_bool x y && bool_decide (unit_of q = un)
  | Array _ => false
  end.

Definition ep (l : list string) : bool := bool_decide (l = ["e-"; "p+"]).

Definition corona (T n_e : Quantity) (species : list string) : bool :=
  holds T 1e6 u.K && holds n_e 1e9 (UPow u.cm (-3)) && ep species.

Definition wind (T n_e : Quantity) (species : list string) : bool :=
  holds T 6e5 u.K && holds n_e 25 (UPow u.cm (-3)) && ep species.

Definition rad_per_s : Unit := UDiv u.rad u.s.

#[export] Instance replay_library : Formulary string MaxwellianArgs := {|
  thermal_speed T particle method ndim :=
    if holds T 1e6 u.K && ep particle && bool_decide (method = "most_probable")
       && bool_decide (ndim = 3%Z)
    then Ok (mkQuantity (Array [Recorded.v_e; Recorded.v_p]) (UDiv u.m u.s))
    else Err "unrecorded";
  impact_parameter T n_e species :=
    if corona T n_e species
    then Ok (float_mul_unit Recorded.bmin_corona u.m,
             float_mul_unit Recorded.bmax_corona u.m)
    else if wind T n_e species
    then Ok (float_mul_unit Recorded.bmin_wind u.m,
             float_mul_unit Recorded.bmax_wind u.m)
    else Err "unrecorded";
  Coulomb_logarithm T n_e species :=
    if corona T n_e species then Ok Recorded.lnL_corona
    else if wind T n_e species then Ok Recorded.lnL_wind
    else Err "unrecorded";
  MaxwellianCollisionFrequencies args := Ok args;
  Lorentz_collision_frequency o :=
    if corona (T_a o) (n_a o) [test_particle o; field_particle o]
    then Ok (float_mul_unit Recorded.nu_corona u.Hz)
    else if wind (T_a o) (n_a o) [test_particle o; field_particle o]
    then Ok (float_mul_unit Recorded.nu_wind u.Hz)
    else Err "unrecorded";
  plasma_frequency n particle :=
    if holds n 1e9 (UPow u.cm (-3)) && ep particle
    then Ok (mkQuantity (Array [Recorded.plasma_e; Recorded.plasma_p]) rad_per_s)
    else Err "unrecorded";
  gyrofrequency B particle :=
    if holds B 50 u.G && ep particle
    then Ok (mkQuantity (Array [Recorded.gyro_e; Recorded.gyro_p]) rad_per_s)
    else Err "unrecorded";
  Quantity_to q target equivalencies :=
    match equivalencies with
    | dimensionless_angles =>
        if bool_decide (unit_of q = rad_per_s) && bool_decide (target = "Hz")
        then Ok (mkQuantity (value q) u.Hz)
        else Err "UnitConversionError"
    | no_equivalency => Err "UnitConversionError"
    end
|}.

Definition responses : Responses MaxwellianArgs := {|
  r_v_e := Recorded.v_e;
  r_v_p := Recorded.v_p;
  r_speed_unit := UDiv u.m u.s;
  r_bmin_corona := float_mul_unit Recorded.bmin_corona u.m;
  r_bmax_corona := float_mul_unit Recorded.bmax_corona u.m;
  r_lnL_corona := Recorded.lnL_corona;
  r_obj_corona :=
    mkMaxwellianArgs "e-" "p+" no_drift T_corona n_corona n_corona T_corona
      (float_mul_unit Recorded.lnL_corona dimensionless_unscaled);
  r_nu_corona := float_mul_unit Recorded.nu_corona u.Hz;
  r_omega_p := mkQuantity (Array [Recorded.plasma_e; Recorded.plasma_p]) rad_per_s;
  r_f_p := mkQuantity (Array [Recorded.plasma_e; Recorded.plasma_p]) u.Hz;
  r_omega_c := mkQuantity (Array [Recorded.gyro_e; Recorded.gyro_p]) rad_per_s;
  r_f_c := mkQuantity (Array [Recorded.gyro_e; Recorded.gyro_p]) u.Hz;
  r_bmin_wind := float_mul_unit Recorded.bmin_wind u.m;
  r_bmax_wind := float_mul_unit Recorded.bmax_wind u.m;
  r_lnL_wind := Recorded.lnL_wind;
  r_obj_wind :=
    mkMaxwellianArgs "e-" "p+" no_drift T_wind n_wind n_wind T_wind
      (float_mul_unit Recorded.lnL_wind dimensionless_unscaled);
  r_nu_wind := float_mul_unit Recorded.nu_wind u.Hz
|}.

End Replay.

Module BrokenGyro.

Definition broken_gyro_library : Formulary string MaxwellianArgs := {|
  thermal_speed := thermal_speed (Formulary:=Replay.replay_library);
  impact_parameter := impact_parameter (Formulary:=Replay.replay_library);
  Coulomb_logarithm := Coulomb_logarithm (Formulary:=Replay.replay_library);
  MaxwellianCollisionFrequencies :=
    MaxwellianCollisionFrequencies (Formulary:=Replay.replay_library);
  Lorentz_collision_frequency :=
    Lorentz_collision_frequency (Formulary:=Replay.replay_library);
  plasma_frequency := plasma_frequency (Formulary:=Replay.replay_library);
  gyrofrequency _ _ := Err "UnitTypeError";
  Quantity_to := Quantity_to (Formulary:=Replay.replay_library)
|}.

(** The call that raises, in cell 70. *)
Definition failed_call : CallRecord string MaxwellianArgs :=
  mkCallRecord 70 (call_gyrofrequency B_corona species_ep) (Some "UnitTypeError").

End BrokenGyro.

(** ** The order of the library calls *)

(** The function a logged call names. *)
Definition call_name {Obj : Type} (c : Call Obj) : string :=
  match c with
  | call_thermal_speed _ _ _ _ => "thermal_speed"
  | call_impact_parameter _ _ _ => "impact_parameter"
  | call_Coulomb_logarithm _ _ _ => "Coulomb_logarithm"
  | call_MaxwellianCollisionFrequencies _ => "MaxwellianCollisionFrequencies"
  | call_Lorentz_collision_frequency _ => "Lorentz_collision_frequency"
  | call_plasma_frequency _ _ => "plasma_frequency"
  | call_gyrofrequency _ _ => "gyrofrequency"
  | call_to _ _ _ => "to"
  end.

(** The cells and functions of a call log, in order. *)
Definition sequence_of {E Obj : Type} (l : list (CallRecord E Obj))
  : list (nat * string) :=
  (λ c, (site c, call_name (callee c))) <$> l.

(** The library calls of the notebook in the order its cells write them. *)
Definition call_sequence : list (nat * string) := [
  (66%nat, "thermal_speed");
  (67%nat, "impact_parameter");
  (67%nat, "Coulomb_logarithm");
  (68%nat, "Coulomb_logarithm");
  (68%nat, "MaxwellianCollisionFrequencies");
  (68%nat, "Lorentz_collision_frequency");
  (69%nat, "plasma_frequency");
  (69%nat, "to");
  (70%nat, "gyrofrequency");
  (70%nat, "to");
  (71%nat, "impact_parameter");
  (71%nat, "Coulomb_logarithm");
  (71%nat, "MaxwellianCollisionFrequencies");
  (71%nat, "Lorentz_collision_frequency")
].

(** The scenario dictionary the cells pass to the formulary: [solar_wind]
    in cell 71, [solar_corona] in the cells before it. *)
Definition scenario_at {Obj : Type} (cell : nat) : gmap string (Value Obj) :=
  if decide (cell = 71%nat) then solar_wind else solar_corona.

(** An outcome that is no exception of the interpreter: the statement
    returned, or a library call raised. *)
Definition no_interpreter_error {E A : Type} (o : @Outcome E A) : Prop :=
  match o with
  | Returned _ => True
  | Raised (LibraryError _) => True
  | Raised _ => False
  end.

(** ** The order of the outputs *)

(** The cell an output belongs to. *)
Definition output_cell {Obj : Type} (o : Output Obj) : nat :=
  match o with
  | Stream cell _ => cell
  | ExecuteResult cell _ => cell
  end.

(** The cells of the outputs of a run to the end: one line printed by
    cell 66, two lines and a result for cell 67, a result for each of the
    cells 68 to 70, three lines and a result for cell 71. *)
Definition output_cells : list nat :=
  [66; 67; 67; 67; 68; 69; 70; 71; 71; 71; 71]%nat.

(** * Reasoning about runs *)

(** ** Rules of the weakest precondition *)

Section WP.

Context {E Obj : Type} {L : Formulary E Obj}.

#[local] Abbreviation M := (@M E Obj).
#[local] Abbreviation State := (State E Obj).

Lemma wp_ret {A} (a : A) (Φ : State → Outcome A → Prop) s :
  Φ s (Returned a) → wp (mret a) Φ s.
Proof. done. Qed.

Lemma wp_raise {A} x (Φ : State → Outcome A → Prop) s :
  Φ s (Raised x) → wp (raise x) Φ s.
Proof. done. Qed.

Lemma wp_bind {A B} (m : M A) (k : A → M B) (Φ : State → Outcome B → Prop) s :
  wp m (λ s' r, match r with
                | Returned a => wp (k a) Φ s'
                | Raised x => Φ s' (Raised x)
                end) s →
  wp (m ≫= k) Φ s.
Proof.
  unfold wp, mbind, M_bind, bind.
  destruct (m s) as [s' [a|x]]; done.
Qed.

Lemma wp_assign x v (Φ : State → Outcome unit → Prop) s :
  Φ (mkState (<[x := v]> (ns s)) (outputs s) (calls s)) (Returned tt) →
  wp (assign x v) Φ s.
Proof. done. Qed.

Lemma wp_load x v (Φ : State → Outcome (Value Obj) → Prop) s :
  ns s !! x = Some v → Φ s (Returned v) → wp (load x) Φ s.
Proof. unfold wp, load. by intros ->. Qed.

Lemma wp_emit o (Φ : State → Outcome unit → Prop) s :
  Φ (mkState (ns s) (outputs s ++ [o]) (calls s)) (Returned tt) →
  wp (emit o) Φ s.
Proof. done. Qed.

Lemma wp_invoke_ok {A} cell c (r : LibResult E A) a
    (Φ : State → Outcome A → Prop) s :
  r = Ok a →
  Φ (mkState (ns s) (outputs s) (calls s ++ [mkCallRecord cell c None]))
    (Returned a) →
  wp (invoke cell c r) Φ s.
Proof. by intros ->. Qed.

Lemma wp_invoke_err {A} cell c (r : LibResult E A) e
    (Φ : State → Outcome A → Prop) s :
  r = Err e →
  Φ (mkState (ns s) (outputs s) (calls s ++ [mkCallRecord cell c (Some e)]))
    (Raised (LibraryError e)) →
  wp (invoke cell c r) Φ s.
Proof. by intros ->. Qed.

Lemma wp_exec_nil (Φ : State → Outcome unit → Prop) s :
  Φ s (Returned tt) → wp (exec []) Φ s.
Proof. done. Qed.

Lemma wp_exec_cons st p (Φ : State → Outcome unit → Prop) s :
  wp st (λ s' r, match r with
                 | Returned _ => wp (exec p) Φ s'
                 | Raised x => Φ s' (Raised x)
                 end) s →
  wp (exec (st :: p)) Φ s.
Proof. intros H. by apply wp_bind. Qed.

Lemma scenario_kwargs_solar_corona :
  scenario_kwargs (E:=E) (Obj:=Obj) solar_corona =
  mret (float_mul_unit 1e6 u.K, float_mul_unit 1e9 (UPow u.cm (-3)), ["e-"; "p+"]).
Proof. reflexivity. Qed.

Lemma scenario_kwargs_solar_wind :
  scenario_kwargs (E:=E) (Obj:=Obj) solar_wind =
  mret (float_mul_unit 6e5 u.K, float_mul_unit 25 (UPow u.cm (-3)), ["e-"; "p+"]).
Proof. reflexivity. Qed.

End WP.

(** Symbolic execution of a run, one primitive at a time.  Name lookups
    are decided on the literal names; a library call whose result is known
    from a hypothesis takes it, any other is analysed by cases. *)
Ltac wp_lookup :=
  cbn [ns];
  repeat (rewrite lookup_insert_ne by done); apply lookup_insert_eq.

Ltac wp_call :=
  lazymatch goal with
  | |- wp (invoke _ _ ?r) _ _ =>
      first
        [ match goal with
          | H : _ = Ok ?a |- _ => apply (wp_invoke_ok _ _ r a); [exact H|]
          end
        | match goal with
          | H : _ = Err ?e |- _ => apply (wp_invoke_err _ _ r e); [exact H|]
          end
        | let H := fresh "Hcall" in
          destruct r eqn:H;
          [ eapply wp_invoke_ok; [reflexivity|]
          | eapply wp_invoke_err; [reflexivity|] ] ]
  end.

Ltac wp_unpack :=
  unfold unpack2; cbn [value unit_of];
  try lazymatch goal with
  | |- wp (match value ?q with _ => _ end) _ _ =>
      let H := fresh "Hshape" in
      destruct (value q) as [?|[|? [|? [|? ?]]]] eqn:H
  end.

Ltac wp_step :=
  cbv beta iota;
  cbn [ns outputs calls app];
  lazymatch goal with
  | |- wp (exec []) _ _ => apply wp_exec_nil
  | |- wp (exec (_ :: _)) _ _ => apply wp_exec_cons
  | |- wp (mret _) _ _ => apply wp_ret
  | |- wp (raise _) _ _ => apply wp_raise
  | |- wp (_ ≫= _) _ _ => apply wp_bind
  | |- wp (assign _ _) _ _ => apply wp_assign
  | |- wp (load _) _ _ => eapply wp_load; [wp_lookup|]
  | |- wp (emit _) _ _ => apply wp_emit
  | |- wp (invoke _ _ _) _ _ => wp_call
  | |- wp (unpack2 _) _ _ => wp_unpack
  | |- wp (let '(_, _) := ?p in _) _ _ => destruct p
  | |- wp (as_quantity (VQuantity _)) _ _ => unfold as_quantity
  | |- wp (as_dict (VDict _)) _ _ => unfold as_dict
  | |- wp (as_object (VObject _)) _ _ => unfold as_object
  | |- wp (with_scenario _ _) _ _ => unfold with_scenario
  | |- wp (print_formatted _ _) _ _ => unfold print_formatted
  | |- wp (scenario_kwargs solar_corona) _ _ =>
      rewrite scenario_kwargs_solar_corona
  | |- wp (scenario_kwargs solar_wind) _ _ =>
      rewrite scenario_kwargs_solar_wind
  | |- wp (py_thermal_speed _ _ _ _ _) _ _ => unfold py_thermal_speed
  | |- wp (py_impact_parameter _ _ _ _) _ _ => unfold py_impact_parameter
  | |- wp (py_Coulomb_logarithm _ _ _ _) _ _ => unfold py_Coulomb_logarithm
  | |- wp (py_MaxwellianCollisionFrequencies _ _) _ _ =>
      unfold py_MaxwellianCollisionFrequencies
  | |- wp (py_Lorentz_collision_frequency _ _) _ _ =>
      unfold py_Lorentz_collision_frequency
  | |- wp (py_plasma_frequency _ _ _) _ _ => unfold py_plasma_frequency
  | |- wp (py_gyrofrequency _ _ _) _ _ => unfold py_gyrofrequency
  | |- wp (py_to _ _ _ _) _ _ => unfold py_to
  end.

Ltac wp_run := repeat wp_step; cbv beta iota; cbn [ns outputs calls app].

Ltac wp_notebook :=
  unfold notebook, cell65, cell66, cell67, cell68, cell69, cell70, cell71;
  cbn [app]; unfold fresh_kernel; wp_run.

(** ** Rules of framing *)

Section Frames.

Context {E Obj : Type} {L : Formulary E Obj}.

#[local] Abbreviation M := (@M E Obj).

Lemma frames_ret {A} x (a : A) : frames (E:=E) (Obj:=Obj) x (mret a).
Proof. done. Qed.

Lemma frames_raise {A} x exn : frames x (raise (E:=E) (Obj:=Obj) (A:=A) exn).
Proof. done. Qed.

Lemma frames_bind {A B} x (m : M A) (k : A → M B) :
  frames x m → (∀ a, frames x (k a)) → frames x (m ≫= k).
Proof.
  intros Hm Hk s. specialize (Hm s).
  unfold mbind, M_bind, bind.
  destruct (m s) as [s' [a|exn]]; [|done].
  rewrite <- Hm. apply Hk.
Qed.

Lemma frames_assign x y (v : Value Obj) :
  x ≠ y → frames (E:=E) x (assign y v).
Proof. intros Hne s. cbn. by rewrite lookup_insert_ne. Qed.

Lemma frames_load x y : frames (E:=E) (Obj:=Obj) x (load y).
Proof. intros s. unfold load. by destruct (ns s !! y). Qed.

Lemma frames_emit x (o : Output Obj) : frames (E:=E) x (emit o).
Proof. done. Qed.

Lemma frames_invoke {A} x cell c (r : LibResult E A) :
  frames x (invoke (Obj:=Obj) cell c r).
Proof. intros s. by destruct r. Qed.

Lemma frames_as_quantity x (v : Value Obj) : frames (E:=E) x (as_quantity v).
Proof. destruct v; done. Qed.

Lemma frames_as_dict x (v : Value Obj) : frames (E:=E) x (as_dict v).
Proof. destruct v; done. Qed.

Lemma frames_as_object x (v : Value Obj) : frames (E:=E) x (as_object v).
Proof. destruct v; done. Qed.

Lemma frames_scenario_kwargs x (d : gmap string (Value Obj)) :
  frames (E:=E) x (scenario_kwargs d).
Proof. unfold scenario_kwargs. repeat case_match; done. Qed.

Lemma frames_unpack2 x q : frames (E:=E) (Obj:=Obj) x (unpack2 q).
Proof. unfold unpack2. repeat case_match; done. Qed.

Lemma frames_with_scenario {A} x name
    (f : Quantity → Quantity → list string → M A) :
  (∀ T n_e species, frames x (f T n_e species)) →
  frames x (with_scenario name f).
Proof.
  intros Hf. unfold with_scenario.
  apply frames_bind; [apply frames_bind|].
  - apply frames_load.
  - apply frames_as_dict.
  - intros d. apply frames_bind; [apply frames_scenario_kwargs|].
    intros [[T n_e] species]. apply Hf.
Qed.

(** A run of statements that each leave [x] alone leaves [x] alone,
    wherever it stops. *)
Lemma frames_exec x (p : list (M unit)) :
  Forall (frames x) p → frames x (exec p).
Proof.
  induction 1 as [|st p Hst _ IH]; [done|].
  cbn [exec]. apply frames_bind; [done|]. intros _. exact IH.
Qed.

End Frames.

Ltac frames_step :=
  lazymatch goal with
  | |- frames _ (_ ≫= _) => apply frames_bind
  | |- frames _ (with_scenario _ _) => apply frames_with_scenario
  | |- frames _ (print_formatted _ _) => unfold print_formatted
  | |- frames _ (load _) => apply frames_load
  | |- frames _ (emit _) => apply frames_emit
  | |- frames _ (invoke _ _ _) => apply frames_invoke
  | |- frames _ (as_quantity _) => apply frames_as_quantity
  | |- frames _ (as_dict _) => apply frames_as_dict
  | |- frames _ (as_object _) => apply frames_as_object
  | |- frames _ (unpack2 _) => apply frames_unpack2
  | |- frames _ (mret _) => apply frames_ret
  | |- frames _ (assign _ _) => by apply frames_assign
  | |- frames _ (let '(_, _) := ?p in _) => destruct p
  | |- frames _ (py_thermal_speed _ _ _ _ _) => apply frames_invoke
  | |- frames _ (py_impact_parameter _ _ _ _) => apply frames_invoke
  | |- frames _ (py_Coulomb_logarithm _ _ _ _) => apply frames_invoke
  | |- frames _ (py_MaxwellianCollisionFrequencies _ _) => apply frames_invoke
  | |- frames _ (py_Lorentz_collision_frequency _ _) => apply frames_invoke
  | |- frames _ (py_plasma_frequency _ _ _) => apply frames_invoke
  | |- frames _ (py_gyrofrequency _ _ _) => apply frames_invoke
  | |- frames _ (py_to _ _ _ _) => apply frames_invoke
  | |- ∀ _, _ => intro
  end.

Ltac frames_statements :=
  unfold notebook, cell65, cell66, cell67, cell68, cell69, cell70, cell71;
  cbn [app drop];
  repeat apply Forall_cons_2; [..|apply Forall_nil_2];
  repeat frames_step.

(** ** The run in which every call returns *)

(** The replayed library returns its responses, by evaluation. *)
Ltac replay_answers := split; vm_compute; reflexivity.

(** A member of a list given by its elements. *)
Ltac in_list := vm_compute; repeat constructor.

Section Runs.

Context {E Obj : Type} {L : Formulary E Obj}.

(** X17.  When every call of the sequence returns, the notebook runs to
    its end and every cell shows what the library returned, passed on
    unchanged: the speeds and impact parameters as unpacked, the Coulomb
    logarithm of cell 67, the Lorentz collision frequency of the object
    built from the scenario's own arguments and logarithm, and the plasma
    and gyro frequencies as [Quantity.to] converted them; the fourteen
    calls carry the arguments of [calls_of]. *)
Theorem run_all_answers (r : Responses Obj) :
  answers r →
  run_all.2 = Returned tt ∧
  outputs run_all.1 = outputs_of r ∧
  calls run_all.1 = calls_of r.
Proof.
  intros [].
  change (wp (exec notebook)
            (λ s o, o = Returned tt ∧ outputs s = outputs_of r ∧
                    calls s = calls_of r) fresh_kernel).
  unfold maxwellian_corona, maxwellian_wind,
    T_corona, n_corona, B_corona, T_wind, n_wind, no_drift, species_ep in *.
  wp_notebook.
  done.
Qed.

(** The converse of propagation: a library exception at the end of the run
    is the one the last call raised. *)
Lemma library_error_comes_from_last_call (e : E) :
  run_all.2 = Raised (LibraryError e) →
  ∃ c, last (calls run_all.1) = Some c ∧ raised c = Some e.
Proof.
  revert e.
  change (wp (exec notebook)
            (λ s o, ∀ e, o = Raised (LibraryError e) →
               ∃ c, last (calls s) = Some c ∧ raised c = Some e) fresh_kernel).
  wp_notebook.
  all: intros exn Hr; try discriminate Hr.
  all: injection Hr as ->; eexists; split; reflexivity.
Qed.

End Runs.

(** * The properties of the specification *)

Section Claims.

Context {E Obj : Type} {L : Formulary E Obj}.


(** X15.  The names [solar_corona] and [solar_wind] are bound by one
    literal assignment each (the 4th and the 16th statement); no statement
    after the assignment binds the name again, in whatever state it runs
    and whether its library calls return or raise, and so does no run of
    the statements that follow.  This is about the binding of the two
    names: what a callee does to the list and the quantities it is handed
    is the library's behaviour and is not modelled. *)
Theorem scenario_records_never_mutated :
  notebook !! 3%nat = Some (assign "solar_corona" (VDict solar_corona)) ∧
  Forall (frames "solar_corona") (drop 4 notebook) ∧
  frames "solar_corona" (exec (drop 4 notebook)) ∧
  notebook !! 15%nat = Some (assign "solar_wind" (VDict solar_wind)) ∧
  Forall (frames "solar_wind") (drop 16 notebook) ∧
  frames "solar_wind" (exec (drop 16 notebook)).
Proof.
  assert (Hcorona : Forall (frames "solar_corona") (drop 4 notebook))
    by frames_statements.
  assert (Hwind : Forall (frames "solar_wind") (drop 16 notebook))
    by frames_statements.
  split_and!; [reflexivity|exact Hcorona|by apply frames_exec
              |reflexivity|exact Hwind|by apply frames_exec].
Qed.

(** C8.  Every [MaxwellianCollisionFrequencies] call of the notebook
    passes [v_drift = 0 * u.m / u.s]; with a drift of magnitude 0 the
    "slowly flowing" condition holds for all positive thermal speeds. *)
Theorem maxwellian_calls_are_slowly_flowing
    (c : CallRecord E Obj) (args : MaxwellianArgs) :
  c ∈ calls run_all.1 →
  callee c = call_MaxwellianCollisionFrequencies args →
  ∃ v,
    v_drift args = mkQuantity (Scalar v) (UDiv u.m u.s) ∧
    v = 0%Q ∧
    ∀ v_a v_b : R, (0 < v_a)%R → (0 < v_b)%R → slowly_flowing v v_a v_b.
Proof.
  intros Hin Hc. exists 0%Q. split_and!; [|done|].
  - revert c args Hin Hc.
    change (wp (exec notebook)
              (λ s o, ∀ c args, c ∈ calls s →
                 callee c = call_MaxwellianCollisionFrequencies args →
                 v_drift args = mkQuantity (Scalar 0) (UDiv u.m u.s))
              fresh_kernel).
    wp_notebook.
    all: intros rec margs Hin Hc.
    all: repeat (apply elem_of_cons in Hin as [->|Hin];
                 [cbn [callee] in Hc; try discriminate Hc|]).
    all: try by apply elem_of_nil in Hin.
    all: by injection Hc as <-.
  - intros v_a v_b Ha Hb. unfold slowly_flowing.
    rewrite RMicromega.Q2R_0, Rmult_0_r.
    apply sqrt_lt_R0. nra.
Qed.

End Claims.

(** ** The properties on concrete runs

    Each theorem with a hypothesis is applied to a concrete library: the
    one that replays the recorded outputs, or the one whose
    [gyrofrequency] raises. *)

#[local] Abbreviation replayed := (run_all (L:=Replay.replay_library)).
#[local] Abbreviation broken := (run_all (L:=BrokenGyro.broken_gyro_library)).


Lemma maxwellian_calls_are_slowly_flowing_witness :
  ∃ v,
    v_drift (maxwellian_wind Replay.responses) =
      mkQuantity (Scalar v) (UDiv u.m u.s) ∧
    v = 0%Q ∧
    ∀ v_a v_b : R, (0 < v_a)%R → (0 < v_b)%R → slowly_flowing v v_a v_b.
Proof.
  apply (maxwellian_calls_are_slowly_flowing
           (L:=Replay.replay_library)
           (mkCallRecord 71
              (call_MaxwellianCollisionFrequencies
                 (maxwellian_wind Replay.responses)) None));
    [in_list|reflexivity].
Defined.

(** * Further properties of the notebook *)

Section MoreRules.

Context {E Obj : Type} {L : Formulary E Obj}.

Lemma wp_load_unbound x (Φ : State E Obj → Outcome (Value Obj) → Prop) s :
  ns s !! x = None → Φ s (Raised (NameError x)) → wp (load x) Φ s.
Proof. unfold wp, load. by intros ->. Qed.

End MoreRules.

Section Further.

Context {E Obj : Type} {L : Formulary E Obj}.

(** X1.  Whatever the library returns or raises, the calls of a run are
    an initial part of the fixed sequence of fourteen calls, in the order
    the cells write them; a run that returns made all fourteen. *)
Theorem calls_follow_the_fixed_sequence :
  sequence_of (calls run_all.1) `prefix_of` call_sequence ∧
  (run_all.2 = Returned tt → sequence_of (calls run_all.1) = call_sequence).
Proof.
  change (wp (exec notebook)
            (λ s o, sequence_of (calls s) `prefix_of` call_sequence ∧
                    (o = Returned tt → sequence_of (calls s) = call_sequence))
            fresh_kernel).
  wp_notebook.
  all: split; [eexists; reflexivity|try discriminate; reflexivity].
Qed.

(** X2.  The run never raises [NameError].  It ends with an exception of
    the interpreter only when [thermal_speed] returns something that cannot
    be unpacked into two: [TypeError] for a scalar, [ValueError] for an
    array that has not two components; one call has been made by then and
    nothing is shown. *)
Theorem interpreter_errors_only_from_unpacking :
  (∀ x, run_all.2 ≠ Raised (NameError x)) ∧
  (∀ q, thermal_speed T_corona species_ep "most_probable" 3 = Ok q →
     match value q with
     | Scalar _ =>
         run_all.2 = Raised TypeError ∧
         sequence_of (calls run_all.1) = take 1 call_sequence ∧
         outputs run_all.1 = []
     | Array [_; _] => no_interpreter_error run_all.2
     | Array _ =>
         run_all.2 = Raised ValueError ∧
         sequence_of (calls run_all.1) = take 1 call_sequence ∧
         outputs run_all.1 = []
     end) ∧
  (∀ e, thermal_speed T_corona species_ep "most_probable" 3 = Err e →
     run_all.2 = Raised (LibraryError e)).
Proof.
  unfold T_corona, species_ep.
  change (wp (exec notebook)
            (λ s o,
               (∀ x, o ≠ Raised (NameError x)) ∧
               (∀ q, thermal_speed (float_mul_unit 1e6 u.K) ["e-"; "p+"]
                       "most_probable" 3 = Ok q →
                  match value q with
                  | Scalar _ =>
                      o = Raised TypeError ∧
                      sequence_of (calls s) = take 1 call_sequence ∧
                      outputs s = []
                  | Array [_; _] => no_interpreter_error o
                  | Array _ =>
                      o = Raised ValueError ∧
                      sequence_of (calls s) = take 1 call_sequence ∧
                      outputs s = []
                  end) ∧
               (∀ e, thermal_speed (float_mul_unit 1e6 u.K) ["e-"; "p+"]
                       "most_probable" 3 = Err e →
                  o = Raised (LibraryError e)))
            fresh_kernel).
  wp_notebook.
  all: split_and!; [done| |].
  all: try (intros ? [= <-]; rewrite ?Hshape; done).
  all: try (intros ? [=]; done).
Qed.

(** X3.  [impact_parameter] and [Coulomb_logarithm] are always called
    with the items of the scenario dictionary of their cell: the same
    values for both, as the notebook's comment says. *)
Theorem scenario_functions_receive_the_scenario
    (c : CallRecord E Obj) (T n_e : Quantity) (species : list string) :
  c ∈ calls run_all.1 →
  callee c = call_impact_parameter T n_e species ∨
  callee c = call_Coulomb_logarithm T n_e species →
  scenario_at (Obj:=Obj) (site c) !! "T" = Some (VQuantity T) ∧
  scenario_at (Obj:=Obj) (site c) !! "n_e" = Some (VQuantity n_e) ∧
  scenario_at (Obj:=Obj) (site c) !! "species" = Some (VList (VStr <$> species)).
Proof.
  revert c T n_e species.
  change (wp (exec notebook)
            (λ s o, ∀ c T n_e species, c ∈ calls s →
               callee c = call_impact_parameter T n_e species ∨
               callee c = call_Coulomb_logarithm T n_e species →
               scenario_at (Obj:=Obj) (site c) !! "T" = Some (VQuantity T) ∧
               scenario_at (Obj:=Obj) (site c) !! "n_e" = Some (VQuantity n_e) ∧
               scenario_at (Obj:=Obj) (site c) !! "species" =
                 Some (VList (VStr <$> species)))
            fresh_kernel).
  wp_notebook.
  all: intros rec T n_e species Hin Hc.
  all: repeat (apply elem_of_cons in Hin as [->|Hin];
               [cbn [callee site] in *;
                destruct Hc as [Hc|Hc]; try discriminate Hc;
                injection Hc as <- <- <-; by vm_compute|]).
  all: by apply elem_of_nil in Hin.
Qed.

(** X4.  Each [MaxwellianCollisionFrequencies] call is made for the
    scenario of its cell: [T_a] and [T_b] are the scenario's temperature,
    [n_a] and [n_b] its electron density, and the two species are the
    scenario's, although the cell writes these values a second time. *)
Theorem maxwellian_call_matches_its_scenario
    (c : CallRecord E Obj) (args : MaxwellianArgs) :
  c ∈ calls run_all.1 →
  callee c = call_MaxwellianCollisionFrequencies args →
  T_a args = T_b args ∧ n_a args = n_b args ∧
  scenario_at (Obj:=Obj) (site c) !! "T" = Some (VQuantity (T_a args)) ∧
  scenario_at (Obj:=Obj) (site c) !! "n_e" = Some (VQuantity (n_a args)) ∧
  scenario_at (Obj:=Obj) (site c) !! "species" =
    Some (VList [VStr (test_particle args); VStr (field_particle args)]).
Proof.
  revert c args.
  change (wp (exec notebook)
            (λ s o, ∀ c args, c ∈ calls s →
               callee c = call_MaxwellianCollisionFrequencies args →
               T_a args = T_b args ∧ n_a args = n_b args ∧
               scenario_at (Obj:=Obj) (site c) !! "T" =
                 Some (VQuantity (T_a args)) ∧
               scenario_at (Obj:=Obj) (site c) !! "n_e" =
                 Some (VQuantity (n_a args)) ∧
               scenario_at (Obj:=Obj) (site c) !! "species" =
                 Some (VList [VStr (test_particle args);
                              VStr (field_particle args)]))
            fresh_kernel).
  wp_notebook.
  all: intros rec margs Hin Hc.
  all: repeat (apply elem_of_cons in Hin as [->|Hin];
               [cbn [callee site] in *; try discriminate Hc;
                injection Hc as <-; by vm_compute|]).
  all: by apply elem_of_nil in Hin.
Qed.

(** X5.  The name [Coulomb_log] is bound again in cell 71: the call of
    [MaxwellianCollisionFrequencies] there receives the logarithm
    [Coulomb_logarithm] returned for the solar wind, which is also the one
    the cell prints, and not the corona's of cell 68. *)
Theorem solar_wind_call_uses_its_own_Coulomb_logarithm
    (args : MaxwellianArgs) (e : option E) :
  mkCallRecord 71 (call_MaxwellianCollisionFrequencies args) e
    ∈ calls run_all.1 →
  ∃ x,
    Coulomb_logarithm T_wind n_wind species_ep = Ok x ∧
    Coulomb_log args = float_mul_unit x dimensionless_unscaled ∧
    printed run_all.1 71 "Coulomb_log" = Some (VQuantity (Coulomb_log args)).
Proof.
  revert args e. unfold T_wind, n_wind, species_ep.
  change (wp (exec notebook)
            (λ s o, ∀ args e,
               mkCallRecord 71 (call_MaxwellianCollisionFrequencies args) e
                 ∈ calls s →
               ∃ x,
                 Coulomb_logarithm (float_mul_unit 6e5 u.K)
                   (float_mul_unit 25 (UPow u.cm (-3))) ["e-"; "p+"] = Ok x ∧
                 Coulomb_log args = float_mul_unit x dimensionless_unscaled ∧
                 printed s 71 "Coulomb_log" = Some (VQuantity (Coulomb_log args)))
            fresh_kernel).
  wp_notebook.
  all: intros margs exn Hin.
  all: repeat (apply elem_of_cons in Hin as [Heq|Hin];
               [try discriminate Heq|]).
  all: try by apply elem_of_nil in Hin.
  all: injection Heq as -> _.
  all: eexists; split_and!; [reflexivity|reflexivity|by vm_compute].
Qed.

(** X16.  In the corona cells [Coulomb_logarithm] is evaluated twice, in
    cell 67 and in cell 68, on the same arguments, and the
    [MaxwellianCollisionFrequencies] call of cell 68 receives as
    [Coulomb_log] the value the library returns for these arguments, times
    [u.dimensionless_unscaled].  The library is a function of its arguments
    here: that two evaluations agree is the model's, not a result. *)
Theorem corona_call_uses_the_logarithm_of_its_scenario
    (args : MaxwellianArgs) (e : option E) :
  mkCallRecord 68 (call_MaxwellianCollisionFrequencies args) e
    ∈ calls run_all.1 →
  mkCallRecord 67 (call_Coulomb_logarithm T_corona n_corona species_ep) None
    ∈ calls run_all.1 ∧
  mkCallRecord 68 (call_Coulomb_logarithm T_corona n_corona species_ep) None
    ∈ calls run_all.1 ∧
  ∃ x,
    Coulomb_logarithm T_corona n_corona species_ep = Ok x ∧
    Coulomb_log args = float_mul_unit x dimensionless_unscaled.
Proof.
  revert args e. unfold T_corona, n_corona, species_ep.
  change (wp (exec notebook)
            (λ s o, ∀ args e,
               mkCallRecord 68 (call_MaxwellianCollisionFrequencies args) e
                 ∈ calls s →
               mkCallRecord 67
                 (call_Coulomb_logarithm (float_mul_unit 1e6 u.K)
                    (float_mul_unit 1e9 (UPow u.cm (-3))) ["e-"; "p+"]) None
                 ∈ calls s ∧
               mkCallRecord 68
                 (call_Coulomb_logarithm (float_mul_unit 1e6 u.K)
                    (float_mul_unit 1e9 (UPow u.cm (-3))) ["e-"; "p+"]) None
                 ∈ calls s ∧
               ∃ x,
                 Coulomb_logarithm (float_mul_unit 1e6 u.K)
                   (float_mul_unit 1e9 (UPow u.cm (-3))) ["e-"; "p+"] = Ok x ∧
                 Coulomb_log args = float_mul_unit x dimensionless_unscaled)
            fresh_kernel).
  wp_notebook.
  all: intros margs exn Hin.
  all: repeat (apply elem_of_cons in Hin as [Heq|Hin];
               [try discriminate Heq|]).
  all: try by apply elem_of_nil in Hin.
  all: injection Heq as -> _.
  all: split_and!;
         [by repeat constructor|by repeat constructor
         |eexists; split; reflexivity].
Qed.

End Further.

Section Cells.

Context {E Obj : Type} {L : Formulary E Obj}.

(** X6.  Cells 67, 70 and 71 read no variable they have not assigned
    themselves (the imported modules and functions apart): run from any
    kernel state, each returns or ends with a library exception, never
    with [NameError], [TypeError] or [ValueError]. *)
Theorem cells_67_70_71_are_self_contained (s : State E Obj) :
  no_interpreter_error (exec cell67 s).2 ∧
  no_interpreter_error (exec cell70 s).2 ∧
  no_interpreter_error (exec cell71 s).2.
Proof.
  split_and!.
  - change (wp (exec cell67) (λ _ o, no_interpreter_error o) s).
    unfold cell67. wp_run. all: done.
  - change (wp (exec cell70) (λ _ o, no_interpreter_error o) s).
    unfold cell70. wp_run. all: done.
  - change (wp (exec cell71) (λ _ o, no_interpreter_error o) s).
    unfold cell71. wp_run. all: done.
Qed.

(** X7.  Cell 69 depends on cell 68 for the variable [n]: in a kernel
    where [n] is not bound it raises [NameError] at once, leaving the state
    as it was: no library call, no output. *)
Theorem cell69_needs_n (s : State E Obj) :
  ns s !! "n" = None →
  (exec cell69 s).1 = s ∧ (exec cell69 s).2 = Raised (NameError "n").
Proof.
  intros Hn.
  change (wp (exec cell69)
            (λ s' o, s' = s ∧ o = Raised (NameError "n")) s).
  unfold cell69.
  apply wp_exec_cons, wp_bind, wp_bind, wp_load_unbound; done.
Qed.

(** X8.  Cell 68 depends on cell 67 for the variable [solar_corona]: in
    a kernel where it is not bound the cell binds [n] and then raises
    [NameError], before any library call and any output. *)
Theorem cell68_needs_solar_corona (s : State E Obj) :
  ns s !! "solar_corona" = None →
  (exec cell68 s).2 = Raised (NameError "solar_corona") ∧
  ns (exec cell68 s).1 =
    <["n" := VQuantity (float_mul_unit 1e9 (UPow u.cm (-3)))]> (ns s) ∧
  outputs (exec cell68 s).1 = outputs s ∧
  calls (exec cell68 s).1 = calls s.
Proof.
  intros Hn.
  change (wp (exec cell68)
            (λ s' o,
               o = Raised (NameError "solar_corona") ∧
               ns s' = <["n" := VQuantity (float_mul_unit 1e9 (UPow u.cm (-3)))]>
                         (ns s) ∧
               outputs s' = outputs s ∧ calls s' = calls s) s).
  unfold cell68.
  apply wp_exec_cons, wp_assign, wp_exec_cons, wp_bind.
  unfold with_scenario.
  apply wp_bind, wp_bind, wp_load_unbound; [|done].
  cbn [ns]. by rewrite lookup_insert_ne.
Qed.

(** X9.  [T_corona] and [n], which later cells read, are bound by one
    assignment each (the 1st and the 9th statement) and no later statement
    changes them, whatever the library does. *)
Theorem inputs_of_later_cells_are_bound_once :
  notebook !! 0%nat =
    Some (assign "T_corona" (VQuantity (float_mul_unit 1e6 u.K))) ∧
  Forall (frames "T_corona") (drop 1 notebook) ∧
  notebook !! 8%nat =
    Some (assign "n" (VQuantity (float_mul_unit 1e9 (UPow u.cm (-3))))) ∧
  Forall (frames "n") (drop 9 notebook).
Proof.
  split_and!; [reflexivity|frames_statements|reflexivity|frames_statements].
Qed.

(** X10.  When [thermal_speed] returns an array of two, cell 66 binds
    [v_e] to its first and [v_p] to its second component, each with the
    array's unit, and prints them in this order, from any kernel state. *)
Theorem thermal_speeds_are_unpacked_in_order
    (s : State E Obj) (x y : Q) (un : Unit) :
  thermal_speed T_corona species_ep "most_probable" 3 =
    Ok (mkQuantity (Array [x; y]) un) →
  (exec cell66 s).2 = Returned tt ∧
  ns (exec cell66 s).1 !! "v_e" = Some (VQuantity (mkQuantity (Scalar x) un)) ∧
  ns (exec cell66 s).1 !! "v_p" = Some (VQuantity (mkQuantity (Scalar y) un)) ∧
  outputs (exec cell66 s).1 =
    (outputs s ++
     [Stream 66 [Plain (VQuantity (mkQuantity (Scalar x) un));
                 Plain (VQuantity (mkQuantity (Scalar y) un))]])%list.
Proof.
  unfold T_corona, species_ep. intros Hspeed.
  change (wp (exec cell66)
            (λ s' o,
               o = Returned tt ∧
               ns s' !! "v_e" = Some (VQuantity (mkQuantity (Scalar x) un)) ∧
               ns s' !! "v_p" = Some (VQuantity (mkQuantity (Scalar y) un)) ∧
               outputs s' =
                 (outputs s ++
                  [Stream 66 [Plain (VQuantity (mkQuantity (Scalar x) un));
                              Plain (VQuantity (mkQuantity (Scalar y) un))]])%list)
            s).
  unfold cell66. wp_run.
  split_and!; [done| | |done].
  - by rewrite lookup_insert_ne, lookup_insert_eq.
  - by rewrite lookup_insert_eq.
Qed.

End Cells.

Section Unpacking.

Context {E Obj : Type} {L : Formulary E Obj}.

(** X11.  The outputs of a run appear in the order of the cells: they
    are an initial part of the eleven outputs of a run to the end, and all
    eleven when the run returns. *)
Theorem outputs_follow_the_cells :
  output_cell <$> outputs run_all.1 `prefix_of` output_cells ∧
  (run_all.2 = Returned tt → output_cell <$> outputs run_all.1 = output_cells).
Proof.
  change (wp (exec notebook)
            (λ s o, output_cell <$> outputs s `prefix_of` output_cells ∧
                    (o = Returned tt → output_cell <$> outputs s = output_cells))
            fresh_kernel).
  wp_notebook.
  all: split; [eexists; reflexivity|try discriminate; reflexivity].
Qed.

(** X14.  Cell 71 does not depend on the kernel state it runs in: its
    outcome, the outputs it adds and the calls it makes are the same from
    every state, so nothing left by the corona cells under the names
    [bmin], [bmax], [Coulomb_log] and [frequencies] reaches the solar wind
    results. *)
Theorem cell71_does_not_depend_on_the_state :
  ∃ o out log, ∀ s : State E Obj,
    (exec cell71 s).2 = o ∧
    outputs (exec cell71 s).1 = (outputs s ++ out)%list ∧
    calls (exec cell71 s).1 = (calls s ++ log)%list.
Proof.
  destruct (impact_parameter (float_mul_unit 6e5 u.K)
              (float_mul_unit 25 (UPow u.cm (-3))) ["e-"; "p+"])
    as [[bmin bmax]|e1] eqn:H1;
  [destruct (Coulomb_logarithm (float_mul_unit 6e5 u.K)
               (float_mul_unit 25 (UPow u.cm (-3))) ["e-"; "p+"])
     as [lnL|e2] eqn:H2;
   [destruct (MaxwellianCollisionFrequencies
                (mkMaxwellianArgs "e-" "p+"
                   (quantity_div_unit (float_mul_unit 0 u.m) u.s)
                   (float_mul_unit (inject_Z (6 * 10 ^ 5)) u.K)
                   (float_mul_unit 25 (UPow u.cm (-3)))
                   (float_mul_unit 25 (UPow u.cm (-3)))
                   (float_mul_unit (inject_Z (6 * 10 ^ 5)) u.K)
                   (float_mul_unit lnL dimensionless_unscaled)))
      as [obj|e3] eqn:H3;
    [destruct (Lorentz_collision_frequency obj) as [nu|e4] eqn:H4|]|]|].
  all: eexists _, _, _; intros s.
  all: lazymatch goal with
       | |- _ = ?o ∧ _ = (_ ++ ?out)%list ∧ _ = (_ ++ ?log)%list =>
           change (wp (exec cell71)
                     (λ s' o', o' = o ∧ outputs s' = (outputs s ++ out)%list ∧
                               calls s' = (calls s ++ log)%list) s)
       end.
  all: unfold cell71; wp_run.
  all: rewrite <- ?(assoc_L (++)); cbn [app].
  all: split_and!; try reflexivity; by rewrite (right_id_L [] (++)).
Qed.

End Unpacking.

(** ** The further properties on concrete runs *)

Lemma scenario_functions_receive_the_scenario_witness :
  scenario_at (Obj:=MaxwellianArgs) 71 !! "T" = Some (VQuantity T_wind) ∧
  scenario_at (Obj:=MaxwellianArgs) 71 !! "n_e" = Some (VQuantity n_wind) ∧
  scenario_at (Obj:=MaxwellianArgs) 71 !! "species" =
    Some (VList (VStr <$> species_ep)).
Proof.
  apply (scenario_functions_receive_the_scenario
           (L:=Replay.replay_library)
           (mkCallRecord 71
              (call_Coulomb_logarithm T_wind n_wind species_ep) None));
    [in_list|right; reflexivity].
Defined.

Lemma maxwellian_call_matches_its_scenario_witness :
  T_a (maxwellian_wind Replay.responses) =
    T_b (maxwellian_wind Replay.responses) ∧
  n_a (maxwellian_wind Replay.responses) =
    n_b (maxwellian_wind Replay.responses) ∧
  scenario_at (Obj:=MaxwellianArgs) 71 !! "T" =
    Some (VQuantity (T_a (maxwellian_wind Replay.responses))) ∧
  scenario_at (Obj:=MaxwellianArgs) 71 !! "n_e" =
    Some (VQuantity (n_a (maxwellian_wind Replay.responses))) ∧
  scenario_at (Obj:=MaxwellianArgs) 71 !! "species" =
    Some (VList [VStr (test_particle (maxwellian_wind Replay.responses));
                 VStr (field_particle (maxwellian_wind Replay.responses))]).
Proof.
  apply (maxwellian_call_matches_its_scenario
           (L:=Replay.replay_library)
           (mkCallRecord 71
              (call_MaxwellianCollisionFrequencies
                 (maxwellian_wind Replay.responses)) None));
    [in_list|reflexivity].
Defined.

Lemma solar_wind_call_uses_its_own_Coulomb_logarithm_witness :
  ∃ x,
    Coulomb_logarithm (Formulary:=Replay.replay_library)
      T_wind n_wind species_ep = Ok x ∧
    Coulomb_log (maxwellian_wind Replay.responses) =
      float_mul_unit x dimensionless_unscaled ∧
    printed replayed.1 71 "Coulomb_log" =
      Some (VQuantity (Coulomb_log (maxwellian_wind Replay.responses))).
Proof.
  apply (solar_wind_call_uses_its_own_Coulomb_logarithm
           (L:=Replay.replay_library)
           (maxwellian_wind Replay.responses) None);
    in_list.
Defined.

Lemma cell69_needs_n_witness :
  (exec (cell69 (L:=Replay.replay_library)) fresh_kernel).1 = fresh_kernel ∧
  (exec (cell69 (L:=Replay.replay_library)) fresh_kernel).2 =
    Raised (NameError "n").
Proof.
  apply (cell69_needs_n (L:=Replay.replay_library) fresh_kernel);
    reflexivity.
Defined.

Lemma cell68_needs_solar_corona_witness :
  (exec (cell68 (L:=Replay.replay_library)) fresh_kernel).2 =
    Raised (NameError "solar_corona") ∧
  ns (exec (cell68 (L:=Replay.replay_library)) fresh_kernel).1 =
    <["n" := VQuantity (float_mul_unit 1e9 (UPow u.cm (-3)))]>
      (ns (fresh_kernel (E:=string) (Obj:=MaxwellianArgs))) ∧
  outputs (exec (cell68 (L:=Replay.replay_library)) fresh_kernel).1 =
    outputs (fresh_kernel (E:=string) (Obj:=MaxwellianArgs)) ∧
  calls (exec (cell68 (L:=Replay.replay_library)) fresh_kernel).1 =
    calls (fresh_kernel (E:=string) (Obj:=MaxwellianArgs)).
Proof.
  apply (cell68_needs_solar_corona (L:=Replay.replay_library) fresh_kernel);
    reflexivity.
Defined.

Lemma thermal_speeds_are_unpacked_in_order_witness :
  (exec (cell66 (L:=Replay.replay_library)) fresh_kernel).2 = Returned tt ∧
  ns (exec (cell66 (L:=Replay.replay_library)) fresh_kernel).1 !! "v_e" =
    Some (VQuantity (mkQuantity (Scalar Recorded.v_e) (UDiv u.m u.s))) ∧
  ns (exec (cell66 (L:=Replay.replay_library)) fresh_kernel).1 !! "v_p" =
    Some (VQuantity (mkQuantity (Scalar Recorded.v_p) (UDiv u.m u.s))) ∧
  outputs (exec (cell66 (L:=Replay.replay_library)) fresh_kernel).1 =
    (outputs (fresh_kernel (E:=string) (Obj:=MaxwellianArgs)) ++
     [Stream 66
        [Plain (VQuantity (mkQuantity (Scalar Recorded.v_e) (UDiv u.m u.s)));
         Plain (VQuantity (mkQuantity (Scalar Recorded.v_p) (UDiv u.m u.s)))]])%list.
Proof.
  apply (thermal_speeds_are_unpacked_in_order
           (L:=Replay.replay_library) fresh_kernel
           Recorded.v_e Recorded.v_p (UDiv u.m u.s));
    vm_compute; reflexivity.
Defined.

Lemma corona_call_uses_the_logarithm_of_its_scenario_witness :
  mkCallRecord 67 (call_Coulomb_logarithm T_corona n_corona species_ep) None
    ∈ calls replayed.1 ∧
  mkCallRecord 68 (call_Coulomb_logarithm T_corona n_corona species_ep) None
    ∈ calls replayed.1 ∧
  ∃ x,
    Coulomb_logarithm (Formulary:=Replay.replay_library)
      T_corona n_corona species_ep = Ok x ∧
    Coulomb_log (maxwellian_corona Replay.responses) =
      float_mul_unit x dimensionless_unscaled.
Proof.
  apply (corona_call_uses_the_logarithm_of_its_scenario
           (L:=Replay.replay_library)
           (maxwellian_corona Replay.responses) None);
    in_list.
Defined.

Lemma run_all_answers_witness :
  replayed.2 = Returned tt ∧
  outputs replayed.1 = outputs_of Replay.responses ∧
  calls replayed.1 = calls_of Replay.responses.
Proof.
  apply (run_all_answers (L:=Replay.replay_library) Replay.responses);
    replay_answers.
Defined.
